(** * Simulador VAN / TIR: the financial core of [app.py]

    The script reads an initial outlay, a discount rate (in percent) and an
    editable table of per-period income and expense, and derives
      - the net flow of each period            (line 77),
      - the full cash-flow vector              (line 80),
      - the VAN (net present value)            (line 83),
      - the TIR (internal rate of return)      (lines 87-92),
      - the two traffic-light colours          (lines 101-102).

    Python floats are IEEE binary64 numbers; they are modelled by Rocq's
    primitive floats.  The same script is also read over the real numbers,
    which is the setting in which the discounted-sum formula of the NPV is
    stated.  Both readings share one definition of the script, written over
    the small arithmetic interface [Number].

    [script] is the whole calculation, with the call at line 83 able to
    raise; [app] is the calculation from a call at line 83 that
    returned. *)

From Stdlib Require Import List String Ascii Bool ZArith Lia.
From Stdlib Require Import DecimalString Floats Reals Lra.
Import ListNotations.

Set Implicit Arguments.

(** ** Python calls that may raise *)

Module Py.

(** The result of evaluating a Python expression: a value, or an exception
    travelling up to the nearest handler. *)
Inductive outcome (A : Type) : Type :=
| Returns (a : A)
| Raises.
Arguments Returns {A} a.
Arguments Raises {A}.

Definition ret {A : Type} (a : A) : outcome A := Returns a.

Definition bind {A B : Type} (m : outcome A) (k : A -> outcome B)
  : outcome B :=
  match m with
  | Returns a => k a
  | Raises => Raises
  end.

(** [try: body / except: handler] with a bare [except], which catches
    every exception of the body. *)
Definition try_except {A : Type} (body handler : outcome A) : outcome A :=
  match body with
  | Returns a => Returns a
  | Raises => handler
  end.

End Py.

Import Py.

Notation "x <- m ;; k" := (bind m (fun x => k))
  (at level 61, m at next level, right associativity).

(** ** The arithmetic the script uses *)

Class Number (F : Type) : Type := {
  zero : F;                      (* the literal 0 *)
  one : F;                       (* the literal 1 *)
  hundred : F;                   (* the literal 100 *)
  fneg : F -> F;                 (* -x *)
  fadd : F -> F -> F;            (* x + y *)
  fsub : F -> F -> F;            (* x - y *)
  fmul : F -> F -> F;            (* x * y *)
  fdiv : F -> F -> F;            (* x / y *)
  fgt : F -> F -> bool           (* x > y *)
}.

(** Python's [float]: IEEE 754 binary64, with nan and the infinities. *)
#[export] Instance float64 : Number float := {|
  zero := 0%float;
  one := 1%float;
  hundred := 100%float;
  fneg := PrimFloat.opp;
  fadd := PrimFloat.add;
  fsub := PrimFloat.sub;
  fmul := PrimFloat.mul;
  fdiv := PrimFloat.div;
  fgt := fun x y => PrimFloat.ltb y x
|}.

(** The real numbers: floats without rounding and without special values. *)
#[export] Instance real : Number R := {|
  zero := 0%R;
  one := 1%R;
  hundred := 100%R;
  fneg := Ropp;
  fadd := Rplus;
  fsub := Rminus;
  fmul := Rmult;
  fdiv := Rdiv;
  fgt := fun x y => if Rlt_dec y x then true else false
|}.

(** ** Data model *)

(** A row of [edited_df]. *)
Record fila (F : Type) : Type := {
  Periodo : Z;
  Ingresos : F;
  Egresos : F
}.

(** What the widgets hand to the calculation. *)
Record entrada (F : Type) : Type := {
  inversion_inicial : F;
  tasa_descuento : F;
  edited_df : list (fila F)
}.

(** The names bound by the calculation, as the display code reads them. *)
Record salida (F : Type) : Type := {
  flujos : list F;            (* flujos_completo *)
  van : F;
  tir : option F;             (* None is Python's None *)
  tir_display : string;
  color_van : string;
  color_tir : string
}.

(** ** The script *)

Section Simulador.

Context {F : Type} {num : Number F}.

(** The three routines the script calls and does not define:
    [npf.net_present_value], [npf.irr] and the [.2f] float formatting. *)
Variable net_present_value : F -> list F -> F.
Variable irr : list F -> outcome F.
Variable format_2f : F -> string.

(** Line 77: the column [Flujo Neto ($)]. *)
Definition flujo_neto (df : list (fila F)) : list F :=
  map (fun r => fsub (Ingresos r) (Egresos r)) df.

(** Line 80. *)
Definition flujos_completo (inversion : F) (neto : list F) : list F :=
  [fneg inversion] ++ neto.

(** Line 83, the value bound when the call returns. *)
Definition calcular_van (tasa : F) (completo : list F) : F :=
  net_present_value (fdiv tasa hundred) completo.

(** Lines 87-92: the [try]/[except] around [npf.irr]. *)
Definition calcular_tir (completo : list F) : outcome (option F * string) :=
  try_except
    (x <- irr completo ;;
     let t := fmul x hundred in
     ret (Some t, (format_2f t ++ "%")%string))
    (ret (None, "No calc."%string)).

(** Line 101. *)
Definition color_de_van (v : F) : string :=
  if fgt v zero then "green"%string else "red"%string.

(** Line 102: [tir is not None and tir > tasa_descuento]. *)
Definition color_de_tir (t : option F) (tasa : F) : string :=
  if match t with
     | Some x => fgt x tasa
     | None => false
     end
  then "green"%string else "red"%string.

End Simulador.

(** Lines 77-102, in the order of the script.  The call at line 83 stands
    outside the [try] block: when it raises, the script stops there and no
    later name is bound. *)
Definition script {F : Type} {num : Number F}
    (npf_net_present_value : F -> list F -> outcome F)
    (irr : list F -> outcome F) (format_2f : F -> string)
    (e : entrada F) : outcome (salida F) :=
  let neto := flujo_neto (edited_df e) in
  let completo := flujos_completo (inversion_inicial e) neto in
  v <- npf_net_present_value (fdiv (tasa_descuento e) hundred) completo ;;
  r <- calcular_tir irr format_2f completo ;;
  ret {| flujos := completo;
         van := v;
         tir := fst r;
         tir_display := snd r;
         color_van := color_de_van v;
         color_tir := color_de_tir (fst r) (tasa_descuento e) |}.

(** The script from a call at line 83 that returns: [net_present_value]
    gives the value the call returned. *)
Definition app {F : Type} {num : Number F}
    (net_present_value : F -> list F -> F)
    (irr : list F -> outcome F) (format_2f : F -> string)
    (e : entrada F) : outcome (salida F) :=
  script (fun rate values => ret (net_present_value rate values))
         irr format_2f e.


(** ** The library routines *)

Module NPV.

Section Formula.

Context {F : Type} {num : Number F}.

(** [b ** t] for a period index [t]. *)
Fixpoint potencia (b : F) (t : nat) : F :=
  match t with
  | O => one
  | S t' => fmul b (potencia b t')
  end.

(** The entries from period [t] on, each divided by [(1 + rate) ** t]. *)
Fixpoint discounted (rate : F) (t : nat) (values : list F) : F :=
  match values with
  | [] => zero
  | v :: rest =>
      fadd (fdiv v (potencia (fadd one rate) t)) (discounted rate (S t) rest)
  end.

(** Modelled from the spec: [npf.net_present_value], the routine of
    numpy_financial called at line 83, which is not part of the repository's
    sources.  The spec gives it as the standard discounted-cash-flow sum,
    "NPV = sum over t = 0..N of vector[t] / (1 + rate)^t", the entry of
    period 0 undiscounted and every later entry discounted by its period
    index; a float comes out for every input and nothing else happens. *)
Definition net_present_value (rate : F) (values : list F) : F :=
  discounted rate 0 values.

End Formula.

(** The library as it is installed: numpy_financial has no attribute
    [net_present_value] (its routine for the NPV is called [npv]), so
    looking the name up at line 83 raises AttributeError, whatever the
    arguments. *)
Definition missing_attribute {F : Type} (rate : F) (values : list F)
  : outcome F := Raises.

(** The formula of the spec as a sum indexed by the period,
    [sum_{t=0}^{N} vector[t] / (1 + rate)^t], over the reals. *)
Definition discounted_sum (rate : R) (vector : list R) (N : nat) : R :=
  sum_f_R0 (fun t => nth t vector 0 / (1 + rate) ^ t)%R N.

(** The undiscounted sum of a vector. *)
Definition total (vector : list R) : R := fold_right Rplus 0%R vector.

End NPV.

Module IRR.

(** A routine that reports "no solution" by returning nan, as a float, and
    raises nothing. *)
Definition irr_nan (values : list float) : outcome float := Returns nan.

(** A routine that reports "no solution" by raising. *)
Definition irr_raises (values : list float) : outcome float := Raises.

End IRR.

(** ** Python's [format(x, ".2f")] on binary64 *)

Module Formato.

(** The integer nearest to [n / d], ties going to the even one. *)
Definition round_half_even (n d : Z) : Z :=
  let q := (n / d)%Z in
  let r := (n mod d)%Z in
  match (2 * r ?= d)%Z with
  | Lt => q
  | Gt => (q + 1)%Z
  | Eq => if Z.even q then q else (q + 1)%Z
  end.

(** The hundredths in [m * 2^e], correctly rounded. *)
Definition hundredths (m : positive) (e : Z) : Z :=
  if (0 <=? e)%Z
  then (100 * Z.pos m * 2 ^ e)%Z
  else round_half_even (100 * Z.pos m) (2 ^ (- e)).

Definition decimal (n : Z) : string :=
  NilZero.string_of_uint (N.to_uint (Z.to_N n)).

Definition two_digits (n : Z) : string :=
  ((if (n <? 10)%Z then "0" else "") ++ decimal n)%string.

Definition signo (negative : bool) : string :=
  if negative then "-"%string else ""%string.

Definition format_2f (x : float) : string :=
  match Prim2SF x with
  | S754_nan => "nan"%string
  | S754_infinity s => (signo s ++ "inf")%string
  | S754_zero s => (signo s ++ "0.00")%string
  | S754_finite s m e =>
      let h := hundredths m e in
      (signo s ++ decimal (h / 100) ++ "." ++ two_digits (h mod 100))%string
  end.

End Formato.

(** ** Inputs used below *)

Module Casos.

(** One period whose expense exceeds its income: every entry of the vector
    is negative. *)
Definition solo_egresos : entrada float := {|
  inversion_inicial := 10000%float;
  tasa_descuento := 12%float;
  edited_df := [ {| Periodo := 1; Ingresos := 0%float; Egresos := 500%float |} ]
|}.


(** Scenario A of the spec, the table the script shows at start. *)
Definition escenario_a : entrada float := {|
  inversion_inicial := 10000%float;
  tasa_descuento := 12%float;
  edited_df :=
    [ {| Periodo := 1; Ingresos := 3000%float; Egresos := 1000%float |};
      {| Periodo := 2; Ingresos := 4000%float; Egresos := 1200%float |};
      {| Periodo := 3; Ingresos := 5000%float; Egresos := 1300%float |};
      {| Periodo := 4; Ingresos := 5000%float; Egresos := 1300%float |};
      {| Periodo := 5; Ingresos := 5000%float; Egresos := 1300%float |} ]
|}.

(** A discount rate of -100 percent over one period without movement: the
    discount factor is zero and the period contributes 0 / 0. *)
Definition tasa_menos_cien : entrada float := {|
  inversion_inicial := 1000%float;
  tasa_descuento := (-100)%float;
  edited_df := [ {| Periodo := 1; Ingresos := 0%float; Egresos := 0%float |} ]
|}.

End Casos.

(** ** The table offered for editing (lines 50-61) *)

Module Tabla.

(** The dictionary [data]: one list per column. *)
Record columnas : Type := {
  col_Periodo : list Z;
  col_Ingresos : list float;
  col_Egresos : list float
}.

(** [list(range(a, b))]. *)
Definition range (a b : Z) : list Z :=
  map (fun k => (a + Z.of_nat k)%Z) (seq 0 (Z.to_nat (b - a))).

(** [[x] * n]; a negative [n] gives the empty list. *)
Definition veces {A : Type} (x : A) (n : Z) : list A :=
  repeat x (Z.to_nat n).

(** Lines 50-59: zeros in every row, replaced by the example figures when
    there are at least three periods. *)
Definition data (num_periodos : Z) : columnas :=
  let d := {| col_Periodo := range 1 (num_periodos + 1);
              col_Ingresos := veces 0%float num_periodos;
              col_Egresos := veces 0%float num_periodos |} in
  if (3 <=? num_periodos)%Z
  then {| col_Periodo := col_Periodo d;
          col_Ingresos :=
            [3000; 4000; 5000]%float ++ veces 5000%float (num_periodos - 3);
          col_Egresos :=
            [1000; 1200; 1300]%float ++ veces 1300%float (num_periodos - 3) |}
  else d.

(** The rows of three columns of one length. *)
Fixpoint filas (ps : list Z) (ins egs : list float) : list (fila float) :=
  match ps, ins, egs with
  | p :: ps', i :: ins', e :: egs' =>
      {| Periodo := p; Ingresos := i; Egresos := e |} :: filas ps' ins' egs'
  | _, _, _ => []
  end.

(** [pd.DataFrame(data)]: pandas raises on columns of different lengths. *)
Definition DataFrame (d : columnas) : outcome (list (fila float)) :=
  if (List.length (col_Periodo d) =? List.length (col_Ingresos d))%nat &&
     (List.length (col_Ingresos d) =? List.length (col_Egresos d))%nat
  then Returns (filas (col_Periodo d) (col_Ingresos d) (col_Egresos d))
  else Raises.

(** Line 61. *)
Definition df_input (num_periodos : Z) : outcome (list (fila float)) :=
  DataFrame (data num_periodos).

End Tabla.

(** ** The metric of the VAN (line 105) *)

Section Indicadores.

Context {F : Type} {num : Number F}.

(** [delta_color="normal" if van > 0 else "inverse"]. *)
Definition delta_color_de_van (v : F) : string :=
  if fgt v zero then "normal"%string else "inverse"%string.

End Indicadores.

(** * Properties *)

(** ** Strings *)

(** Two strings that agree after one more character each end in the same
    character. *)
Lemma append_last_inj (s t : string) (c d : ascii) :
  (s ++ String c "")%string = (t ++ String d "")%string -> c = d.
Proof.
  revert t; induction s as [|a s IH]; intros [|b t] E; simpl in E.
  - now inversion E.
  - inversion E as [[Ha Ht]]. destruct t; discriminate.
  - inversion E as [[Ha Hs]]. destruct s; discriminate.
  - inversion E as [[Ha Hs]]. eauto.
Qed.

(** A percentage is never the text of the handler. *)
Lemma percent_is_not_no_calc (s : string) :
  (s ++ "%")%string <> "No calc."%string.
Proof.
  intros E.
  change "No calc."%string with ("No calc" ++ ".")%string in E.
  apply append_last_inj in E. discriminate.
Qed.

(** ** The [try]/[except] block *)

Section Bloque.

Context {F : Type} {num : Number F}.
Variable irr : list F -> outcome F.
Variable format_2f : F -> string.

Lemma calcular_tir_returned (completo : list F) (x : F) :
  irr completo = Returns x ->
  calcular_tir irr format_2f completo =
  Returns (Some (fmul x hundred), (format_2f (fmul x hundred) ++ "%")%string).
Proof. intros E; unfold calcular_tir; rewrite E; reflexivity. Qed.

Lemma calcular_tir_raised (completo : list F) :
  irr completo = Raises ->
  calcular_tir irr format_2f completo = Returns (None, "No calc."%string).
Proof. intros E; unfold calcular_tir; rewrite E; reflexivity. Qed.

(** Whatever [npf.irr] does, the block binds [tir] and [tir_display] and the
    script goes on. *)
Lemma calcular_tir_never_raises (completo : list F) :
  exists r, calcular_tir irr format_2f completo = Returns r.
Proof.
  destruct (irr completo) as [x|] eqn:E.
  - eexists; apply calcular_tir_returned; exact E.
  - eexists; apply calcular_tir_raised; exact E.
Qed.

(** [tir] is [None] exactly when [npf.irr] raised. *)
Lemma calcular_tir_none_iff (completo : list F) (r : option F * string) :
  calcular_tir irr format_2f completo = Returns r ->
  (fst r = None <-> irr completo = Raises).
Proof.
  destruct (irr completo) as [x|] eqn:E; intros H.
  - rewrite (calcular_tir_returned E) in H. inversion H; subst; simpl.
    split; discriminate.
  - rewrite (calcular_tir_raised E) in H. inversion H; subst; simpl.
    split; reflexivity.
Qed.

Variable net_present_value : F -> list F -> F.

(** The script as one equation. *)
Lemma app_unfold (e : entrada F) :
  let completo :=
    flujos_completo (inversion_inicial e) (flujo_neto (edited_df e)) in
  app net_present_value irr format_2f e =
  (r <- calcular_tir irr format_2f completo ;;
   ret {| flujos := completo;
          van := calcular_van net_present_value (tasa_descuento e) completo;
          tir := fst r;
          tir_display := snd r;
          color_van :=
            color_de_van
              (calcular_van net_present_value (tasa_descuento e) completo);
          color_tir := color_de_tir (fst r) (tasa_descuento e) |}).
Proof. reflexivity. Qed.

(** Once the call at line 83 has returned, the script reaches its last
    line. *)
Lemma app_returns (e : entrada F) :
  exists s, app net_present_value irr format_2f e = Returns s.
Proof.
  rewrite app_unfold; cbv zeta.
  destruct (calcular_tir_never_raises
              (flujos_completo (inversion_inicial e) (flujo_neto (edited_df e))))
    as [r ->].
  eexists; reflexivity.
Qed.

(** What a finished run bound to each name. *)
Lemma app_inversion (e : entrada F) (s : salida F) :
  app net_present_value irr format_2f e = Returns s ->
  let completo :=
    flujos_completo (inversion_inicial e) (flujo_neto (edited_df e)) in
  flujos s = completo /\
  van s = net_present_value (fdiv (tasa_descuento e) hundred) completo /\
  calcular_tir irr format_2f completo = Returns (tir s, tir_display s) /\
  color_van s = color_de_van (van s) /\
  color_tir s = color_de_tir (tir s) (tasa_descuento e).
Proof.
  rewrite app_unfold; cbv zeta.
  destruct (calcular_tir irr format_2f _) as [[t d]|]; simpl; [|discriminate].
  intros H; inversion H; subst; simpl. repeat split; reflexivity.
Qed.

End Bloque.

(** ** The full cash-flow vector *)

Lemma flujo_neto_length (F : Type) (num : Number F) (df : list (fila F)) :
  List.length (flujo_neto df) = List.length df.
Proof. apply List.length_map. Qed.

Lemma flujo_neto_nth (F : Type) (num : Number F) (df : list (fila F)) (k : nat) :
  nth_error (flujo_neto df) k =
  option_map (fun r => fsub (Ingresos r) (Egresos r)) (nth_error df k).
Proof. apply nth_error_map. Qed.

(** C3.  For every initial outlay and every sequence of net flows of length
    N, the full vector is the negated outlay followed by the net flows: it
    has length N + 1, the outlay sits at period 0 and the k-th net flow at
    period k + 1, in the order of the table.  Each net flow of the table is
    the income of its row minus its expense.  The construction is a total
    function: no input makes it fail. *)
Theorem C3_flujos_completo_is_outlay_then_flows :
  forall (F : Type) (num : Number F) (inversion : F) (neto : list F)
         (df : list (fila F)),
    flujos_completo inversion neto = [fneg inversion] ++ neto /\
    List.length (flujos_completo inversion neto) = S (List.length neto) /\
    nth_error (flujos_completo inversion neto) 0 = Some (fneg inversion) /\
    (forall k, nth_error (flujos_completo inversion neto) (S k) =
               nth_error neto k) /\
    List.length (flujos_completo inversion (flujo_neto df)) = S (List.length df) /\
    (forall k, nth_error (flujos_completo inversion (flujo_neto df)) (S k) =
               option_map (fun r => fsub (Ingresos r) (Egresos r))
                          (nth_error df k)).
Proof.
  intros F num inversion neto df.
  repeat split; try reflexivity.
  - simpl. now rewrite flujo_neto_length.
  - intros k. simpl. apply flujo_neto_nth.
Qed.

(** The table the script shows at start, with the default outlay. *)
Example escenario_a_flujos_completo :
  flujos_completo (inversion_inicial Casos.escenario_a)
                  (flujo_neto (edited_df Casos.escenario_a))
  = [-10000; 2000; 2800; 3700; 3700; 3700]%float.
Proof. reflexivity. Qed.

(** ** The acceptance colours *)

Lemma green_is_not_red : "green"%string <> "red"%string.
Proof. discriminate. Qed.

Lemma color_de_van_green (F : Type) (num : Number F) (v : F) :
  color_de_van v = "green"%string <-> fgt v zero = true.
Proof.
  unfold color_de_van. destruct (fgt v zero); split; intros H;
    try reflexivity; try discriminate.
Qed.

Lemma color_de_tir_green (F : Type) (num : Number F) (t : option F) (tasa : F) :
  color_de_tir t tasa = "green"%string <->
  exists x, t = Some x /\ fgt x tasa = true.
Proof.
  unfold color_de_tir. destruct t as [x|].
  - destruct (fgt x tasa) eqn:G; split.
    + intros _. exists x. split; [reflexivity | exact G].
    + reflexivity.
    + discriminate.
    + intros [y [Hy Hg]]. inversion Hy; subst. congruence.
  - split; [discriminate | intros [y [Hy _]]; discriminate].
Qed.

(** C6.  After every run, the VAN indicator is green exactly when
    [van > 0], and the TIR indicator is green exactly when [tir] is not
    [None] and [tir > tasa_descuento], where [tir] is the rate returned by
    [npf.irr] times 100, a percentage like [tasa_descuento]; with [tir]
    equal to [None] the indicator is red. *)
Theorem C6_green_iff_rule_holds :
  forall (F : Type) (num : Number F) (npv : F -> list F -> F)
         (irr : list F -> outcome F) (fmt : F -> string)
         (e : entrada F) (s : salida F),
    app npv irr fmt e = Returns s ->
    (color_van s = "green"%string <-> fgt (van s) zero = true) /\
    (color_tir s = "green"%string <->
       exists t, tir s = Some t /\ fgt t (tasa_descuento e) = true) /\
    (color_tir s = "green"%string <->
       exists x, irr (flujos s) = Returns x /\
                 fgt (fmul x hundred) (tasa_descuento e) = true) /\
    (tir s = None -> color_tir s = "red"%string).
Proof.
  intros F num npv irr fmt e s H.
  destruct (@app_inversion _ _ _ _ _ _ _ H) as (Hf & Hv & Ht & Hcv & Hct).
  rewrite Hcv, Hct, Hf. repeat split.
  - apply color_de_van_green.
  - apply color_de_van_green.
  - apply color_de_tir_green.
  - apply color_de_tir_green.
  - intros G. apply color_de_tir_green in G. destruct G as [t [Et G]].
    destruct (irr _) as [x|] eqn:E.
    + rewrite (@calcular_tir_returned _ _ _ fmt _ _ E) in Ht. inversion Ht as [[A B]].
      exists x. split; [reflexivity|]. rewrite <- A in Et. inversion Et; subst.
      exact G.
    + rewrite (@calcular_tir_raised _ _ _ fmt _ E) in Ht. inversion Ht as [[A B]].
      rewrite <- A in Et. discriminate.
  - intros [x [E G]].
    rewrite (@calcular_tir_returned _ _ _ fmt _ _ E) in Ht. inversion Ht as [[A B]].
    apply color_de_tir_green. exists (fmul x hundred). split; [reflexivity|exact G].
  - intros ->. reflexivity.
Qed.

Lemma C6_green_iff_rule_holds_witness :
  exists s,
    app NPV.net_present_value (fun _ => Returns 0.25%float) Formato.format_2f
        Casos.escenario_a = Returns s /\
    (color_van s = "green"%string <-> fgt (van s) zero = true) /\
    (color_tir s = "green"%string <->
       exists t, tir s = Some t /\
                 fgt t (tasa_descuento Casos.escenario_a) = true) /\
    (color_tir s = "green"%string <->
       exists x, (fun _ : list float => Returns 0.25%float) (flujos s)
                 = Returns x /\
                 fgt (fmul x hundred) (tasa_descuento Casos.escenario_a) = true) /\
    (tir s = None -> color_tir s = "red"%string).
Proof.
  eexists. split.
  - vm_compute. reflexivity.
  - apply (@C6_green_iff_rule_holds float float64 NPV.net_present_value
             (fun _ => Returns 0.25%float) Formato.format_2f Casos.escenario_a).
    vm_compute. reflexivity.
Defined.

(** ** [tir] and [tir_display] *)

(** C9.  After every run, [tir_display] is "No calc." exactly when [tir] is
    [None].  In particular, when [npf.irr] returns a float that is not
    finite and raises nothing, [tir] is that float times 100 and
    [tir_display] is its [.2f] formatting followed by the percent sign, not
    "No calc.". *)
Theorem C9_no_calc_iff_tir_is_none :
  forall (npv : float -> list float -> float)
         (irr : list float -> outcome float) (fmt : float -> string)
         (e : entrada float) (s : salida float),
    app npv irr fmt e = Returns s ->
    (tir_display s = "No calc."%string <-> tir s = None) /\
    (forall x : float,
        irr (flujos s) = Returns x ->
        is_finite x = false ->
        tir s = Some (x * 100)%float /\
        tir_display s = (fmt (x * 100)%float ++ "%")%string /\
        tir_display s <> "No calc."%string).
Proof.
  intros npv irr fmt e s H.
  destruct (@app_inversion _ _ _ _ _ _ _ H) as (Hf & _ & Ht & _ & _).
  rewrite Hf. destruct (irr _) as [y|] eqn:E.
  - rewrite (@calcular_tir_returned _ _ _ fmt _ _ E) in Ht.
    inversion Ht as [[A B]]. split.
    + split; [|discriminate].
      intros D. exfalso. exact (@percent_is_not_no_calc _ D).
    + intros x Ex _. inversion Ex; subst x.
      repeat split. apply percent_is_not_no_calc.
  - rewrite (@calcular_tir_raised _ _ _ fmt _ E) in Ht.
    inversion Ht as [[A B]]. split.
    + split; reflexivity.
    + intros x Ex. discriminate.
Qed.

Lemma C9_no_calc_iff_tir_is_none_witness :
  exists s,
    app NPV.net_present_value IRR.irr_nan Formato.format_2f Casos.solo_egresos
    = Returns s /\
    tir s = Some nan /\
    tir_display s = "nan%"%string /\
    (tir_display s = "No calc."%string <-> tir s = None) /\
    tir_display s <> "No calc."%string.
Proof.
  eexists. split; [vm_compute; reflexivity|].
  split; [reflexivity|]. split; [reflexivity|].
  destruct (@C9_no_calc_iff_tir_is_none NPV.net_present_value IRR.irr_nan
              Formato.format_2f Casos.solo_egresos _ eq_refl) as [I N].
  split; [exact I|].
  destruct (N nan eq_refl eq_refl) as (_ & _ & D). exact D.
Defined.

(** ** The call at line 83 *)

Lemma script_line_83_raised (F : Type) (num : Number F)
      (llamada : F -> list F -> outcome F) (irr : list F -> outcome F)
      (fmt : F -> string) (e : entrada F) :
  llamada (fdiv (tasa_descuento e) hundred)
          (flujos_completo (inversion_inicial e) (flujo_neto (edited_df e)))
  = Raises ->
  script llamada irr fmt e = Raises.
Proof. intros E. unfold script. rewrite E. reflexivity. Qed.

Lemma script_line_83_returned (F : Type) (num : Number F)
      (llamada : F -> list F -> outcome F) (irr : list F -> outcome F)
      (fmt : F -> string) (e : entrada F) (v : F) :
  llamada (fdiv (tasa_descuento e) hundred)
          (flujos_completo (inversion_inicial e) (flujo_neto (edited_df e)))
  = Returns v ->
  script llamada irr fmt e = app (fun _ _ => v) irr fmt e.
Proof. intros E. unfold app, script. rewrite E. reflexivity. Qed.

(** A run that finished went through line 83: the call returned the VAN,
    and the rest of the run is the run from that value. *)
Lemma script_inversion (F : Type) (num : Number F)
      (llamada : F -> list F -> outcome F) (irr : list F -> outcome F)
      (fmt : F -> string) (e : entrada F) (s : salida F) :
  script llamada irr fmt e = Returns s ->
  llamada (fdiv (tasa_descuento e) hundred)
          (flujos_completo (inversion_inicial e) (flujo_neto (edited_df e)))
  = Returns (van s) /\
  app (fun _ _ => van s) irr fmt e = Returns s.
Proof.
  intros H.
  destruct (llamada _ _) as [v|] eqn:E.
  - rewrite (@script_line_83_returned _ _ _ irr fmt _ _ E) in H.
    destruct (@app_inversion _ _ _ _ _ _ _ H) as (_ & Hv & _).
    simpl in Hv. subst v. split; [reflexivity | exact H].
  - rewrite (@script_line_83_raised _ _ _ irr fmt _ E) in H. discriminate.
Qed.

(** When the call at line 83 returns, the VAN is the value it returned and
    the vector is the one it was given, whatever [npf.irr] does later. *)
Lemma van_unaffected_by_irr (F : Type) (num : Number F)
      (llamada : F -> list F -> outcome F) (irr1 irr2 : list F -> outcome F)
      (fmt : F -> string) (e : entrada F) (v : F) :
  llamada (fdiv (tasa_descuento e) hundred)
          (flujos_completo (inversion_inicial e) (flujo_neto (edited_df e)))
  = Returns v ->
  exists s1 s2 : salida F,
    script llamada irr1 fmt e = Returns s1 /\
    script llamada irr2 fmt e = Returns s2 /\
    van s1 = v /\ van s2 = v /\ flujos s1 = flujos s2.
Proof.
  intros E.
  rewrite (@script_line_83_returned _ _ _ irr1 fmt _ _ E).
  rewrite (@script_line_83_returned _ _ _ irr2 fmt _ _ E).
  destruct (app_returns irr1 fmt (fun _ _ => v) e) as [s1 H1].
  destruct (app_returns irr2 fmt (fun _ _ => v) e) as [s2 H2].
  exists s1, s2.
  destruct (@app_inversion _ _ _ _ _ _ _ H1) as (Hf1 & Hv1 & _).
  destruct (@app_inversion _ _ _ _ _ _ _ H2) as (Hf2 & Hv2 & _).
  repeat split; try assumption; congruence.
Qed.

(** C10, at the input where it fails.  The call at line 83 has no handler.
    When it raises, as the lookup of a name the library does not have
    does, the run stops at line 83 for every input and whatever [npf.irr]
    would do: no VAN is bound and no result is shown. *)
Theorem C10_no_van_when_line_83_raises :
  forall (F : Type) (num : Number F)
         (llamada : F -> list F -> outcome F) (irr : list F -> outcome F)
         (fmt : F -> string) (e : entrada F),
    llamada (fdiv (tasa_descuento e) hundred)
            (flujos_completo (inversion_inicial e) (flujo_neto (edited_df e)))
    = Raises ->
    script llamada irr fmt e = Raises /\
    (forall s : salida F, script llamada irr fmt e <> Returns s).
Proof.
  intros F num llamada irr fmt e E.
  rewrite (@script_line_83_raised _ _ _ irr fmt _ E). split; [reflexivity|].
  intros s. discriminate.
Qed.

Lemma C10_no_van_when_line_83_raises_witness :
  NPV.missing_attribute
    (fdiv (tasa_descuento Casos.escenario_a) hundred)
    (flujos_completo (inversion_inicial Casos.escenario_a)
                     (flujo_neto (edited_df Casos.escenario_a))) = Raises /\
  script NPV.missing_attribute IRR.irr_nan Formato.format_2f
         Casos.escenario_a = Raises /\
  script NPV.missing_attribute IRR.irr_raises Formato.format_2f
         Casos.escenario_a = Raises.
Proof.
  split; [reflexivity|]. split.
  - apply (@C10_no_van_when_line_83_raises float float64
             NPV.missing_attribute IRR.irr_nan Formato.format_2f
             Casos.escenario_a). reflexivity.
  - apply (@C10_no_van_when_line_83_raises float float64
             NPV.missing_attribute IRR.irr_raises Formato.format_2f
             Casos.escenario_a). reflexivity.
Defined.

(** ** A vector for which there is no rate *)

(** C1, at the input where it fails.  With an outlay of 10000 and one
    period of income 0 and expense 500 the full vector is [-10000, -500],
    with no change of sign.  An IRR routine that answers such a vector with
    nan, and raises nothing, leaves the handler unused: the run finishes,
    [tir] is nan rather than [None], and the indicator reads "nan%" rather
    than "No calc.". *)
Theorem C1_nan_reaches_the_display :
  forall (npv : float -> list float -> float)
         (irr : list float -> outcome float),
    irr [-10000; -500]%float = Returns nan ->
    exists s : salida float,
      app npv irr Formato.format_2f Casos.solo_egresos = Returns s /\
      flujos s = [-10000; -500]%float /\
      tir s = Some nan /\
      tir s <> None /\
      tir_display s = "nan%"%string /\
      tir_display s <> "No calc."%string.
Proof.
  intros npv irr E.
  destruct (app_returns irr Formato.format_2f npv Casos.solo_egresos)
    as [s H].
  exists s. split; [exact H|].
  destruct (@app_inversion _ _ _ _ _ _ _ H) as (Hf & _ & Ht & _ & _).
  change (flujos_completo _ _) with [-10000; -500]%float in Hf, Ht.
  rewrite (@calcular_tir_returned _ _ _ Formato.format_2f _ _ E) in Ht.
  inversion Ht as [[A B]].
  repeat split; try assumption; try discriminate.
Qed.

Lemma C1_nan_reaches_the_display_witness :
  IRR.irr_nan [-10000; -500]%float = Returns nan /\
  exists s : salida float,
    app NPV.net_present_value IRR.irr_nan Formato.format_2f Casos.solo_egresos
    = Returns s /\
    flujos s = [-10000; -500]%float /\
    tir s = Some nan /\
    tir s <> None /\
    tir_display s = "nan%"%string /\
    tir_display s <> "No calc."%string.
Proof.
  split; [reflexivity|].
  apply (@C1_nan_reaches_the_display NPV.net_present_value IRR.irr_nan).
  reflexivity.
Defined.

(** ** The discounted sum over the reals *)

Section DiscountedSum.

Local Open Scope R_scope.

Lemma potencia_pow (b : R) (t : nat) : NPV.potencia b t = b ^ t.
Proof. induction t as [|t IH]; simpl; [reflexivity | now rewrite IH]. Qed.

Lemma discounted_nil (rate : R) (t : nat) : NPV.discounted rate t [] = 0.
Proof. reflexivity. Qed.

Lemma discounted_cons (rate : R) (t : nat) (v : R) (rest : list R) :
  NPV.discounted rate t (v :: rest) =
  v / (1 + rate) ^ t + NPV.discounted rate (S t) rest.
Proof. simpl. now rewrite potencia_pow. Qed.

(** From period [t0] on, the entries are summed with the exponents
    [t0], [t0 + 1], ... *)
Lemma discounted_as_sum (rate : R) (values : list R) :
  forall (t0 N : nat),
    List.length values = S N ->
    NPV.discounted rate t0 values =
    sum_f_R0 (fun k => nth k values 0 / (1 + rate) ^ (t0 + k)) N.
Proof.
  induction values as [|v rest IH]; intros t0 N L; [discriminate|].
  rewrite discounted_cons. simpl in L. injection L as L.
  destruct rest as [|w rest'].
  - simpl in L. subst N. simpl. rewrite Nat.add_0_r. lra.
  - destruct N as [|N]; [discriminate|].
    rewrite (IH (S t0) N L).
    rewrite (decomp_sum (fun k => nth k (v :: w :: rest') 0 /
                                  (1 + rate) ^ (t0 + k)) (S N))
      by apply Nat.lt_0_succ.
    rewrite Nat.add_0_r. simpl pred. f_equal.
    apply sum_eq. intros i _. simpl nth.
    now replace (t0 + S i)%nat with (S t0 + i)%nat by lia.
Qed.

(** One more period of discounting is one more division by [1 + rate]. *)
Lemma discounted_shift (rate : R) (values : list R) :
  1 + rate <> 0 ->
  forall t, NPV.discounted rate (S t) values =
            NPV.discounted rate t values / (1 + rate).
Proof.
  intros Hr. induction values as [|v rest IH]; intros t.
  - rewrite !discounted_nil. lra.
  - rewrite !discounted_cons, IH.
    assert (Hp : (1 + rate) ^ t <> 0) by now apply pow_nonzero.
    simpl pow. field. split; assumption.
Qed.

Lemma discounted_rate_0 (values : list R) :
  forall t, NPV.discounted 0 t values = NPV.total values.
Proof.
  induction values as [|v rest IH]; intros t; [reflexivity|].
  rewrite discounted_cons, IH. simpl.
  rewrite Rplus_0_r, pow1. lra.
Qed.

Lemma discounted_decreasing (r1 r2 : R) (values : list R) :
  0 < 1 + r1 -> r1 <= r2 ->
  Forall (fun v => 0 <= v) values ->
  forall t, NPV.discounted r2 t values <= NPV.discounted r1 t values.
Proof.
  intros H1 H12 Hv. induction Hv as [|v rest Hv _ IH]; intros t.
  - rewrite !discounted_nil. lra.
  - rewrite !discounted_cons. apply Rplus_le_compat; [|apply IH].
    assert (P1 : 0 < (1 + r1) ^ t) by (apply pow_lt; exact H1).
    assert (P12 : (1 + r1) ^ t <= (1 + r2) ^ t)
      by (apply pow_incr; lra).
    unfold Rdiv. apply Rmult_le_compat_l; [exact Hv|].
    apply Rinv_le_contravar; assumption.
Qed.

End DiscountedSum.

(** C2.  For every discount rate in percent whose fraction [tasa / 100] is
    not -1 and every full vector of length N + 1, the VAN of line 83 is
    [sum_{t=0}^{N} vector[t] / (1 + tasa/100)^t]: the entry of period 0
    enters as it is, and the later entries enter as their own discounted
    sum divided once more by [1 + tasa/100], so that entry t is divided t
    times. *)
Theorem C2_van_is_the_discounted_sum :
  forall (tasa : R) (vector : list R) (N : nat),
    (tasa / 100 <> -1)%R ->
    List.length vector = S N ->
    calcular_van NPV.net_present_value tasa vector =
      NPV.discounted_sum (tasa / 100) vector N /\
    calcular_van NPV.net_present_value tasa vector =
      (nth 0 vector 0 +
       NPV.net_present_value (tasa / 100) (tl vector) / (1 + tasa / 100))%R.
Proof.
  intros tasa vector N Hr L.
  unfold calcular_van, NPV.net_present_value, NPV.discounted_sum.
  change (fdiv tasa hundred) with (tasa / 100)%R.
  split.
  - rewrite (discounted_as_sum (tasa / 100) vector 0 L).
    apply sum_eq. intros i _. reflexivity.
  - destruct vector as [|v0 rest]; [discriminate|].
    rewrite discounted_cons. simpl nth. simpl tl.
    rewrite discounted_shift by lra. simpl pow. lra.
Qed.

Lemma C2_van_is_the_discounted_sum_witness :
  (12 / 100 <> -1)%R /\
  List.length [-1000; 500]%R = 2%nat /\
  calcular_van NPV.net_present_value 12%R [-1000; 500]%R =
    NPV.discounted_sum (12 / 100) [-1000; 500]%R 1.
Proof.
  split; [lra|]. split; [reflexivity|].
  apply (@C2_van_is_the_discounted_sum 12%R [-1000; 500]%R 1%nat);
    [lra | reflexivity].
Defined.

(** C7.  At rate 0 the NPV of every vector is the plain sum of its
    entries; so is the VAN of line 83 at a discount rate of 0 percent. *)
Theorem C7_rate_zero_is_plain_sum :
  forall vector : list R,
    NPV.net_present_value 0%R vector = NPV.total vector /\
    calcular_van NPV.net_present_value 0%R vector = NPV.total vector.
Proof.
  intros vector. split.
  - apply discounted_rate_0.
  - unfold calcular_van. change (fdiv 0%R hundred) with (0 / 100)%R.
    replace (0 / 100)%R with 0%R by lra. apply discounted_rate_0.
Qed.

(** C8.  For a vector whose first entry is negative and whose later
    entries are all non-negative, the NPV does not increase with the rate:
    for rates [-1 < r1 <= r2], the NPV at [r2] is at most the NPV at
    [r1]. *)
Theorem C8_npv_non_increasing_in_rate :
  forall (v0 : R) (rest : list R) (r1 r2 : R),
    (v0 < 0)%R ->
    Forall (fun v => 0 <= v)%R rest ->
    (-1 < r1)%R -> (-1 < r2)%R -> (r1 <= r2)%R ->
    (NPV.net_present_value r2 (v0 :: rest)
     <= NPV.net_present_value r1 (v0 :: rest))%R.
Proof.
  intros v0 rest r1 r2 _ Hrest H1 _ H12.
  unfold NPV.net_present_value. rewrite !discounted_cons.
  simpl pow. apply Rplus_le_compat; [lra|].
  apply discounted_decreasing; [lra | exact H12 | exact Hrest].
Qed.

Lemma C8_npv_non_increasing_in_rate_witness :
  (-1000 < 0)%R /\
  Forall (fun v => 0 <= v)%R [500; 0]%R /\
  (-1 < 0)%R /\ (-1 < 1)%R /\ (0 <= 1)%R /\
  (NPV.net_present_value 1 [-1000; 500; 0]
   <= NPV.net_present_value 0 [-1000; 500; 0])%R.
Proof.
  assert (H0 : (-1000 < 0)%R) by lra.
  assert (Hrest : Forall (fun v => 0 <= v)%R [500; 0]%R)
    by (repeat constructor; lra).
  assert (H1 : (-1 < 0)%R) by lra.
  assert (H2 : (-1 < 1)%R) by lra.
  assert (H12 : (0 <= 1)%R) by lra.
  repeat split; try assumption.
  exact (@C8_npv_non_increasing_in_rate (-1000)%R [500; 0]%R 0%R 1%R
           H0 Hrest H1 H2 H12).
Defined.

(** ** No period at all *)


(** * Further properties of the script *)

(** ** The table offered for editing *)

Lemma range_length (a b : Z) :
  List.length (Tabla.range a b) = Z.to_nat (b - a).
Proof. unfold Tabla.range. now rewrite List.length_map, List.length_seq. Qed.

Lemma range_nth (a b : Z) (k : nat) (p : Z) :
  nth_error (Tabla.range a b) k = Some p -> p = (a + Z.of_nat k)%Z.
Proof.
  unfold Tabla.range. rewrite nth_error_map.
  destruct (nth_error (seq 0 (Z.to_nat (b - a))) k) as [j|] eqn:E;
    [|discriminate].
  simpl. intros H; inversion H; subst p.
  assert (L : (k < List.length (seq 0 (Z.to_nat (b - a))))%nat)
    by (apply nth_error_Some; congruence).
  rewrite List.length_seq in L.
  assert (N : nth k (seq 0 (Z.to_nat (b - a))) 0%nat = j)
    by (apply nth_error_nth; exact E).
  rewrite seq_nth in N by exact L. simpl in N. now subst j.
Qed.

Lemma veces_length (A : Type) (x : A) (n : Z) :
  List.length (Tabla.veces x n) = Z.to_nat n.
Proof. apply repeat_length. Qed.

Lemma filas_length (ps : list Z) :
  forall ins egs : list float,
    List.length ps = List.length ins ->
    List.length ins = List.length egs ->
    List.length (Tabla.filas ps ins egs) = List.length ps.
Proof.
  induction ps as [|p ps IH]; intros [|i ins] [|e egs] H1 H2;
    simpl in *; try discriminate; try reflexivity.
  f_equal. apply IH; congruence.
Qed.

Lemma filas_periodo (ps : list Z) :
  forall (ins egs : list float) (k : nat) (row : fila float),
    nth_error (Tabla.filas ps ins egs) k = Some row ->
    nth_error ps k = Some (Periodo row).
Proof.
  induction ps as [|p ps IH]; intros [|i ins] [|e egs] k row H;
    simpl in H; try (destruct k; discriminate).
  destruct k as [|k]; simpl in *.
  - inversion H; subst row. reflexivity.
  - eapply IH; exact H.
Qed.

Lemma flujo_neto_filas (ps : list Z) :
  forall ins egs : list float,
    List.length ps = List.length ins ->
    flujo_neto (Tabla.filas ps ins egs) =
    map (fun c => fsub (fst c) (snd c)) (combine ins egs).
Proof.
  induction ps as [|p ps IH]; intros [|i ins] [|e egs] H;
    simpl in *; try discriminate; try reflexivity.
  f_equal. apply IH. congruence.
Qed.

Lemma combine_repeat (A B : Type) (x : A) (y : B) (m : nat) :
  combine (repeat x m) (repeat y m) = repeat (x, y) m.
Proof. induction m as [|m IH]; simpl; [reflexivity | now rewrite IH]. Qed.

Lemma data_lengths (n : Z) :
  List.length (Tabla.col_Periodo (Tabla.data n)) = Z.to_nat n /\
  List.length (Tabla.col_Ingresos (Tabla.data n)) = Z.to_nat n /\
  List.length (Tabla.col_Egresos (Tabla.data n)) = Z.to_nat n.
Proof.
  unfold Tabla.data. destruct (3 <=? n)%Z eqn:G; simpl.
  - apply Z.leb_le in G.
    rewrite range_length, !veces_length.
    repeat split; lia.
  - rewrite range_length, !veces_length. repeat split; lia.
Qed.

Lemma df_input_unfold (n : Z) :
  Tabla.df_input n =
  Returns (Tabla.filas (Tabla.col_Periodo (Tabla.data n))
                       (Tabla.col_Ingresos (Tabla.data n))
                       (Tabla.col_Egresos (Tabla.data n))).
Proof.
  unfold Tabla.df_input, Tabla.DataFrame.
  destruct (data_lengths n) as (LP & LI & LE).
  rewrite LP, LI, LE, Nat.eqb_refl. reflexivity.
Qed.

(** X1.  For every integer [num_periodos] the three columns of [data] have
    one length, so [pd.DataFrame] does not raise: the table has
    [num_periodos] rows (none for a negative number), row k carries the
    period k + 1, and the full vector built from it has one entry more than
    the table has rows.  For the values of the slider, 1 to 20, that is
    between 2 and 21 entries. *)
Theorem X1_df_input_has_num_periodos_rows :
  forall (num_periodos : Z) (inversion : float),
    exists df : list (fila float),
      Tabla.df_input num_periodos = Returns df /\
      List.length df = Z.to_nat num_periodos /\
      (forall (k : nat) (row : fila float),
          nth_error df k = Some row -> Periodo row = (Z.of_nat k + 1)%Z) /\
      List.length (flujos_completo inversion (flujo_neto df)) =
        S (Z.to_nat num_periodos) /\
      ((1 <= num_periodos <= 20)%Z ->
       (2 <= List.length (flujos_completo inversion (flujo_neto df)) <= 21)%nat).
Proof.
  intros n inversion. eexists. split; [apply df_input_unfold|].
  destruct (data_lengths n) as (LP & LI & LE).
  assert (L : List.length
                (Tabla.filas (Tabla.col_Periodo (Tabla.data n))
                             (Tabla.col_Ingresos (Tabla.data n))
                             (Tabla.col_Egresos (Tabla.data n)))
              = Z.to_nat n)
    by (rewrite filas_length; congruence).
  split; [exact L|]. split; [|split].
  - intros k row H. apply filas_periodo in H.
    assert (P : Tabla.col_Periodo (Tabla.data n) = Tabla.range 1 (n + 1))
      by (unfold Tabla.data; destruct (3 <=? n)%Z; reflexivity).
    rewrite P in H. apply range_nth in H. lia.
  - simpl. now rewrite flujo_neto_length, L.
  - intros B. simpl. rewrite flujo_neto_length, L. lia.
Qed.

(** X2.  In the table offered at start every net flow is zero when there
    are fewer than three periods; with three periods or more the net flows
    are 2000, 2800, 3700 and then 3700 for every further period, all
    strictly positive. *)
Theorem X2_net_flows_of_the_initial_table :
  forall (num_periodos : Z) (df : list (fila float)),
    Tabla.df_input num_periodos = Returns df ->
    ((num_periodos < 3)%Z ->
     flujo_neto df = Tabla.veces 0%float num_periodos) /\
    ((3 <= num_periodos)%Z ->
     flujo_neto df =
       [2000; 2800; 3700]%float ++ Tabla.veces 3700%float (num_periodos - 3) /\
     Forall (fun v => fgt v zero = true) (flujo_neto df)).
Proof.
  intros n df H. rewrite df_input_unfold in H. inversion H as [D]. clear H D.
  destruct (data_lengths n) as (LP & LI & _).
  rewrite flujo_neto_filas by congruence. clear LP LI.
  unfold Tabla.data. split; intros B.
  - replace (3 <=? n)%Z with false by (symmetry; apply Z.leb_gt; exact B).
    simpl. unfold Tabla.veces.
    rewrite combine_repeat, map_repeat. reflexivity.
  - replace (3 <=? n)%Z with true by (symmetry; apply Z.leb_le; exact B).
    simpl. unfold Tabla.veces.
    rewrite combine_repeat, map_repeat.
    split; [reflexivity|].
    repeat (constructor; [reflexivity|]).
    apply Forall_forall. intros v Hv. apply repeat_spec in Hv. subst v.
    reflexivity.
Qed.

Lemma X2_net_flows_of_the_initial_table_witness :
  exists df : list (fila float),
    Tabla.df_input 5 = Returns df /\
    flujo_neto df = [2000; 2800; 3700; 3700; 3700]%float /\
    Forall (fun v => fgt v zero = true) (flujo_neto df).
Proof.
  eexists. split; [vm_compute; reflexivity|].
  destruct (@X2_net_flows_of_the_initial_table 5%Z _ eq_refl) as [_ P].
  apply P. lia.
Defined.

(** ** Not-a-number in the indicators *)

Lemma SFeqb_refl_not_nan (p : spec_float) :
  SFeqb p p = false -> p = S754_nan.
Proof.
  destruct p as [s|s| |s m e]; unfold SFeqb; simpl; intros H;
    try reflexivity; exfalso.
  - destruct s; discriminate.
  - destruct s; discriminate.
  - assert (M : Pos.compare_cont Eq m m = Eq) by apply Pos.compare_refl.
    destruct s; rewrite Z.compare_refl, M in H; discriminate.
Qed.

Lemma is_nan_is_nan (x : float) : is_nan x = true -> x = nan.
Proof.
  unfold is_nan. rewrite eqb_spec. intros H.
  apply Prim2SF_inj. change (Prim2SF nan) with S754_nan.
  apply SFeqb_refl_not_nan. now destruct (SFeqb _ _).
Qed.

Lemma nothing_is_above_nan (y : float) : PrimFloat.ltb y nan = false.
Proof.
  rewrite ltb_spec. change (Prim2SF nan) with S754_nan.
  unfold SFltb. now destruct (Prim2SF y).
Qed.


(** X3.  The arrow of the VAN metric follows the VAN light: the delta
    colour is "normal" exactly when the light is green and "inverse"
    exactly when it is red, for floats and reals alike. *)
Theorem X3_delta_color_follows_the_light :
  forall (F : Type) (num : Number F) (v : F),
    (delta_color_de_van v = "normal"%string <->
     color_de_van v = "green"%string) /\
    (delta_color_de_van v = "inverse"%string <->
     color_de_van v = "red"%string).
Proof.
  intros F num v. unfold delta_color_de_van, color_de_van.
  destruct (fgt v zero); repeat split; intros H;
    try reflexivity; discriminate.
Qed.

(** X4.  A nan never lights green.  If the VAN of a run is nan its light is
    red and its delta colour "inverse".  If [npf.irr] returns a nan, [tir]
    is nan (and not [None]), the indicator shows the formatting of nan
    followed by the percent sign, and the TIR light is red whatever the
    discount rate. *)
Theorem X4_nan_is_never_green :
  forall (npv : float -> list float -> float)
         (irr : list float -> outcome float) (fmt : float -> string)
         (e : entrada float) (s : salida float),
    app npv irr fmt e = Returns s ->
    (is_nan (van s) = true ->
     color_van s = "red"%string /\
     delta_color_de_van (van s) = "inverse"%string) /\
    (forall x : float,
        irr (flujos s) = Returns x ->
        is_nan x = true ->
        tir s = Some nan /\
        tir_display s = (fmt nan ++ "%")%string /\
        color_tir s = "red"%string).
Proof.
  intros npv irr fmt e s H.
  destruct (@app_inversion _ _ _ _ _ _ _ H) as (Hf & _ & Ht & Hcv & Hct).
  split.
  - intros N. apply is_nan_is_nan in N. rewrite Hcv, N. split; reflexivity.
  - intros x E N. apply is_nan_is_nan in N. subst x.
    rewrite Hf in E.
    rewrite (@calcular_tir_returned _ _ _ fmt _ _ E) in Ht.
    inversion Ht as [[A B]]. rewrite Hct, <- A. repeat split.
    unfold color_de_tir. simpl fgt. now rewrite nothing_is_above_nan.
Qed.

Lemma X4_nan_is_never_green_witness :
  exists s : salida float,
    app NPV.net_present_value IRR.irr_nan Formato.format_2f
        Casos.tasa_menos_cien = Returns s /\
    is_nan (van s) = true /\
    color_van s = "red"%string /\
    delta_color_de_van (van s) = "inverse"%string /\
    tir s = Some nan /\
    tir_display s = "nan%"%string /\
    color_tir s = "red"%string.
Proof.
  eexists. split; [vm_compute; reflexivity|].
  split; [reflexivity|].
  destruct (@X4_nan_is_never_green NPV.net_present_value IRR.irr_nan
              Formato.format_2f Casos.tasa_menos_cien _ eq_refl) as [V T].
  destruct (V eq_refl) as [V1 V2].
  destruct (T nan eq_refl eq_refl) as (T1 & T2 & T3).
  repeat split; assumption.
Defined.

(** X5.  After every run [tir] is [None] exactly when [npf.irr] raised.  A
    value that [npf.irr] returned is never dropped: [tir] is that value
    times 100 and the indicator is its formatting followed by the percent
    sign. *)
Theorem X5_tir_is_none_iff_irr_raised :
  forall (F : Type) (num : Number F) (npv : F -> list F -> F)
         (irr : list F -> outcome F) (fmt : F -> string)
         (e : entrada F) (s : salida F),
    app npv irr fmt e = Returns s ->
    (tir s = None <-> irr (flujos s) = Raises) /\
    (forall x : F,
        irr (flujos s) = Returns x ->
        tir s = Some (fmul x hundred) /\
        tir_display s = (fmt (fmul x hundred) ++ "%")%string).
Proof.
  intros F num npv irr fmt e s H.
  destruct (@app_inversion _ _ _ _ _ _ _ H) as (Hf & _ & Ht & _ & _).
  rewrite Hf. split.
  - apply (@calcular_tir_none_iff _ _ irr fmt _ (tir s, tir_display s) Ht).
  - intros x E.
    rewrite (@calcular_tir_returned _ _ _ fmt _ _ E) in Ht.
    inversion Ht. split; reflexivity.
Qed.

Lemma X5_tir_is_none_iff_irr_raised_witness :
  exists s : salida float,
    app NPV.net_present_value IRR.irr_raises Formato.format_2f
        Casos.escenario_a = Returns s /\
    (tir s = None <-> IRR.irr_raises (flujos s) = Raises) /\
    tir s = None.
Proof.
  eexists. split; [vm_compute; reflexivity|].
  destruct (@X5_tir_is_none_iff_irr_raised float float64
              NPV.net_present_value IRR.irr_raises Formato.format_2f
              Casos.escenario_a _ eq_refl) as [I _].
  split; [exact I | reflexivity].
Defined.
